(** * NLPP: a line-oriented preprocessor for NetLogo sources

    Shallow embedding of [NLPP.py] and the properties of its directive
    state machine.  Python byte strings are Rocq [string]s, the [config]
    dictionary is a [gmap] from strings to values, and the body of the
    [for line in file] loop of [processFile] is the function [processLine];
    a raised [ProcessingError] is the left injection of a sum.  The
    [verbose] printing has no influence on the state or on the output file
    and is left out. *)

From Stdlib Require Import ZArith Lia Ascii.
From stdpp Require Import gmap strings.

Local Open Scope Z_scope.

(** ** The Python string operations the program uses *)

Module Py.

(** [str.isspace] on one byte in the C locale: tab, newline, vertical tab,
    form feed, carriage return and space. *)
Definition isspace (c : ascii) : bool := Ascii.is_space c.

Fixpoint lstrip (s : string) : string :=
  match s with
  | "" => ""
  | String c r => if isspace c then lstrip r else s
  end.

Fixpoint rstrip (s : string) : string :=
  match s with
  | "" => ""
  | String c r =>
      match rstrip r with
      | "" => if isspace c then "" else String c ""
      | r' => String c r'
      end
  end.

(** [s.strip()] *)
Definition strip (s : string) : string := rstrip (lstrip s).

(** [s.startswith(p)] *)
Fixpoint startswith (s p : string) : bool :=
  match p, s with
  | "", _ => true
  | String _ _, "" => false
  | String a p', String b s' => Ascii.eqb a b && startswith s' p'
  end.

Fixpoint drop (n : nat) (s : string) : string :=
  match n, s with
  | O, _ => s
  | S _, "" => ""
  | S n', String _ r => drop n' r
  end.

Fixpoint take (n : nat) (s : string) : string :=
  match n, s with
  | O, _ => ""
  | S _, "" => ""
  | S n', String c r => String c (take n' r)
  end.

Definition len (s : string) : Z := Z.of_nat (String.length s).

(** A slice bound is counted from the end when negative and is clipped to
    the string. *)
Definition bound (s : string) (i : Z) : Z :=
  if i <? 0 then Z.max 0 (len s + i) else Z.min i (len s).

(** [s[lo:hi]] *)
Definition slice (s : string) (lo hi : Z) : string :=
  take (Z.to_nat (bound s hi - bound s lo)) (drop (Z.to_nat (bound s lo)) s).

(** [s[lo:]] *)
Definition slice_from (s : string) (lo : Z) : string := slice s lo (len s).

Fixpoint find_from (s : string) (c : ascii) (i : Z) : Z :=
  match s with
  | "" => -1
  | String a r => if Ascii.eqb a c then i else find_from r c (i + 1)
  end.

(** [s.find(c)] for a one-character [c]: the least index, or [-1]. *)
Definition find (s : string) (c : ascii) : Z := find_from s c 0.

(** [s.partition(sep)] for a one-character [sep]. *)
Fixpoint partition (s : string) (sep : ascii) : string * string * string :=
  match s with
  | "" => ("", "", "")
  | String a r =>
      if Ascii.eqb a sep then ("", String sep "", r)
      else let '(h, m, t) := partition r sep in (String a h, m, t)
  end.

Fixpoint rfind_from (s : string) (c : ascii) (i : Z) : Z :=
  match s with
  | "" => -1
  | String a r =>
      let j := rfind_from r c (i + 1) in
      if j =? -1 then (if Ascii.eqb a c then i else -1) else j
  end.

(** [s.rfind(c)] for a one-character [c]: the greatest index, or [-1]. *)
Definition rfind (s : string) (c : ascii) : Z := rfind_from s c 0.

End Py.

(** ** The program *)

Inductive ProcessingError : Type := mkProcessingError (value : string).

(** A value of the [config] dictionary: [value == "TRUE"] or, for [VERSION],
    the raw string. *)
Inductive value : Type :=
  | VBool (b : bool)
  | VStr (s : string).

(** Truth value of [config[name]] in [if ( config[name] )]. *)
Definition truthy (v : value) : bool :=
  match v with
  | VBool b => b
  | VStr s => negb (String.eqb s "")
  end.

Definition hasDelim (s : string) : bool :=
  Py.startswith (Py.strip s) ";; $@".

Definition getDelimName (s : string) : string :=
  Py.slice_from (Py.strip s) 5.

Definition getConfigTuple (s : string) : string * value :=
  let '(name, space, value) := Py.partition (Py.slice_from (Py.strip s) 5) " " in
  if negb (String.eqb name "VERSION")
  then (name, VBool (String.eqb value "TRUE"))
  else (name, VStr value).

Definition endOfCode (s : string) : bool :=
  Py.startswith s "@#$#@#$#@".

Definition commentCode (line : string) : string :=
  if String.eqb (Py.slice (Py.strip line) 0 1) ";"
     && negb (String.eqb (Py.slice (Py.strip line) 1 2) ";")
  then line
  else "; " +:+ line.

Definition uncommentCode (line : string) : string :=
  if String.eqb (Py.slice (Py.strip line) 0 2) ";;"
     || negb (String.eqb (Py.slice (Py.strip line) 0 1) ";")
  then line
  else
    let semiPos := Py.find line ";" in
    Py.slice line 0 semiPos +:+ Py.slice_from line (semiPos + 1).

Inductive state : Type :=
  | STATE_NORMAL
  | STATE_CONFIG
  | STATE_COMMENT
  | STATE_UNCOMMENT
  | STATE_ENDOFCODE.

Global Instance state_eq_dec : EqDecision state.
Proof. solve_decision. Defined.

(** The test [hasDelim(line) and getDelimName(line) == "END"]. *)
Definition isEnd (line : string) : bool :=
  hasDelim line && String.eqb (getDelimName line) "END".

Definition unexpectedTag : ProcessingError :=
  mkProcessingError "***Unexpected preprocessor tag found".

(** One iteration of the loop of [processFile]: from the state and the
    dictionary before the line to the state, the dictionary and the line
    handed to [output.write], or to the error raised. *)
Definition processLine (st : state) (config : gmap string value) (line : string)
  : ProcessingError + (state * gmap string value * string) :=
  if endOfCode line then inr (STATE_ENDOFCODE, config, line)
  else if isEnd line then inr (STATE_NORMAL, config, line)
  else if bool_decide (st = STATE_CONFIG) then
    let '(name, value) := getConfigTuple line in
    inr (st, <[name := value]> config, line)
  else if bool_decide (st = STATE_NORMAL) && hasDelim line then
    let name := getDelimName line in
    if String.eqb name "CONFIG" then inr (STATE_CONFIG, config, line)
    else
      match config !! name with
      | Some v =>
          if truthy v then inr (STATE_UNCOMMENT, config, line)
          else inr (STATE_COMMENT, config, line)
      | None => inr (st, config, line)
      end
  else if bool_decide (st = STATE_COMMENT) then
    if isEnd line then inr (STATE_NORMAL, config, line)
    else if hasDelim line then inl unexpectedTag
    else inr (st, config, commentCode line)
  else if bool_decide (st = STATE_UNCOMMENT) then
    if isEnd line then inr (STATE_NORMAL, config, line)
    else if hasDelim line then inl unexpectedTag
    else inr (st, config, uncommentCode line)
  else inr (st, config, line).

(** What a run leaves behind: the lines written to the output file, in the
    order of the writes, and either the final state and dictionary or the
    error that stopped the loop. *)
Record run : Type := mkRun {
  written : list string;
  ended : ProcessingError + (state * gmap string value)
}.

Fixpoint processLines (st : state) (config : gmap string value)
    (output : list string) (lines : list string) : run :=
  match lines with
  | [] => mkRun output (inr (st, config))
  | line :: rest =>
      match processLine st config line with
      | inl e => mkRun output (inl e)
      | inr (st', config', lineOut) =>
          processLines st' config' (output ++ [lineOut]) rest
      end
  end.

(** [processFile] on the lines of the input file. *)
Definition processFile (lines : list string) : run :=
  processLines STATE_NORMAL ∅ [] lines.

(** A text line with its terminator, as the file iterator yields it. *)
Definition ln (s : string) : string := s +:+ String "010" "".

(** ** The files of [processFile] and the command line *)

(** The name [processFile] gives the output file when [outFileName] is
    [None]: [.post] goes in at the position [rfind] returns. *)
Definition defaultOutFileName (inFileName : string) : string :=
  let filenameExtPos := Py.rfind inFileName "." in
  Py.slice inFileName 0 filenameExtPos +:+ ".post"
    +:+ Py.slice_from inFileName filenameExtPos.



Inductive GetoptError : Type := mkGetoptError (msg : string).

(** How [main] ends: [sys.exit], a failed [assert], or the call of
    [processFile] with its three arguments. *)
Inductive mainResult : Type :=
  | SysExit (code : Z)
  | AssertionError (msg : string)
  | CallProcessFile (input : string) (verbose : bool) (output : string).

(** The loop [for o, a in opts] of [main], from the values of [input],
    [output] and [verbose] before it. *)
Fixpoint scanOpts (opts : list (string * string)) (input output : option string)
    (verbose : bool) : string + (option string * option string * bool) :=
  match opts with
  | [] => inr (input, output, verbose)
  | (o, a) :: rest =>
      if String.eqb o "-s" then scanOpts rest input output false
      else if String.eqb o "-o" then scanOpts rest input (Some a) verbose
      else if String.eqb o "-i" then scanOpts rest (Some a) output verbose
      else inl "unhandled option"
  end.

(** [main], from what [getopt.getopt(sys.argv[1:], "i:o:s")] raises or
    returns as [opts]. *)
Definition main (parsed : GetoptError + list (string * string)) : mainResult :=
  match parsed with
  | inl err => SysExit 2
  | inr opts =>
      match scanOpts opts None None true with
      | inl msg => AssertionError msg
      | inr (Some input, Some output, verbose) =>
          CallProcessFile input verbose output
      | inr _ => AssertionError "Missing parameters"
      end
  end.

(** ** Vocabulary of the statements *)

(** [c in s] *)
Fixpoint occurs (c : ascii) (s : string) : bool :=
  match s with
  | "" => false
  | String a r => Ascii.eqb a c || occurs c r
  end.

(** [s] consists of white space only (or is empty). *)
Fixpoint blank (s : string) : bool :=
  match s with
  | "" => true
  | String c r => Py.isspace c && blank r
  end.

(** The stripped line is a single-semicolon comment: its first character
    is [;] and its second character, if any, is not. *)
Definition alreadyCommented (line : string) : Prop :=
  String.get 0 (Py.strip line) = Some ";"%char
  /\ String.get 1 (Py.strip line) <> Some ";"%char.

(** The stripped line starts with [;;] or does not start with [;]. *)
Definition nothingToUncomment (line : string) : Prop :=
  Py.startswith (Py.strip line) ";;" = true
  \/ Py.startswith (Py.strip line) ";" = false.

(** What is written for a line is the line, or one of its two rewritings. *)
Definition rewriting (line lineOut : string) : Prop :=
  lineOut = line \/ lineOut = commentCode line \/ lineOut = uncommentCode line.

(** The dictionary holds what [getConfigTuple] can return: no name has a
    space, [VERSION] is bound to a string and every other name to a
    boolean. *)
Definition configOK (config : gmap string value) : Prop :=
  forall name v, config !! name = Some v ->
    occurs " " name = false
    /\ match v with
       | VBool _ => name <> "VERSION"
       | VStr _ => name = "VERSION"
       end.

(** The argument of the last option [o] in [opts], if [o] is given. *)
Fixpoint lastArg (o : string) (opts : list (string * string)) : option string :=
  match opts with
  | [] => None
  | (o', a) :: rest =>
      match lastArg o rest with
      | Some a' => Some a'
      | None => if String.eqb o' o then Some a else None
      end
  end.

(** The option [o] is among [opts]. *)
Definition given (o : string) (opts : list (string * string)) : bool :=
  existsb (fun p => String.eqb p.1 o) opts.

(** The options the string [i:o:s] allows. *)
Definition knownOpt (p : string * string) : bool :=
  String.eqb p.1 "-s" || String.eqb p.1 "-o" || String.eqb p.1 "-i".


(** ** Facts about the string operations *)

Section StringFacts.

Lemma app_nil (s : string) : "" +:+ s = s.
Proof. reflexivity. Qed.

Lemma app_cons (c : ascii) (s t : string) :
  String c s +:+ t = String c (s +:+ t).
Proof. reflexivity. Qed.

Lemma app_length (s t : string) :
  String.length (s +:+ t) = (String.length s + String.length t)%nat.
Proof. induction s as [|c s IH]; [reflexivity|]. rewrite app_cons. simpl. lia. Qed.

Lemma blank_occurs (c : ascii) (s : string) :
  blank s = true -> Py.isspace c = false -> occurs c s = false.
Proof.
  induction s as [|a r IH]; [reflexivity|]. simpl. intros Hb Hc.
  apply andb_true_iff in Hb as [Ha Hr].
  destruct (Ascii.eqb_spec a c) as [->|_]; [congruence|]. simpl. auto.
Qed.

Lemma lstrip_cases (s : string) :
  (blank s = true /\ Py.lstrip s = "")
  \/ (exists ws c r, s = ws +:+ String c r /\ blank ws = true
                    /\ Py.isspace c = false /\ Py.lstrip s = String c r).
Proof.
  induction s as [|a s IH]; [left; split; reflexivity|]. simpl.
  destruct (Py.isspace a) eqn:Ha.
  - destruct IH as [[Hb Hl]|(ws & c & r & -> & Hb & Hc & Hl)].
    + left. auto.
    + right. exists (String a ws), c, r. rewrite app_cons. simpl.
      rewrite Ha, Hb. auto.
  - right. exists "", a, s. auto.
Qed.

Lemma rstrip_cons (c : ascii) (r : string) :
  Py.isspace c = false -> Py.rstrip (String c r) = String c (Py.rstrip r).
Proof. intros Hc. simpl. rewrite Hc. destruct (Py.rstrip r); reflexivity. Qed.

Lemma rstrip_head (c : ascii) (r : string) :
  Py.rstrip (String c r) = "" \/ exists r', Py.rstrip (String c r) = String c r'.
Proof.
  simpl. destruct (Py.rstrip r); [destruct (Py.isspace c)|]; eauto.
Qed.

(** The stripped line is empty when the line is blank, and otherwise
    starts at the first character that is not white space. *)
Lemma strip_cases (s : string) :
  (blank s = true /\ Py.strip s = "")
  \/ (exists ws c r, s = ws +:+ String c r /\ blank ws = true
                    /\ Py.isspace c = false
                    /\ Py.strip s = String c (Py.rstrip r)).
Proof.
  unfold Py.strip.
  destruct (lstrip_cases s) as [[Hb ->]|(ws & c & r & Hs & Hb & Hc & ->)].
  - left. auto.
  - right. exists ws, c, r. rewrite rstrip_cons by assumption. auto.
Qed.

Lemma take_all (n : nat) (s : string) :
  (String.length s <= n)%nat -> Py.take n s = s.
Proof.
  revert n; induction s as [|c s IH]; intros [|n] H; simpl in *;
    try reflexivity; try lia.
  f_equal. apply IH. lia.
Qed.

Lemma drop_all (n : nat) (s : string) :
  (String.length s <= n)%nat -> Py.drop n s = "".
Proof.
  revert n; induction s as [|c s IH]; intros [|n] H; simpl in *;
    try reflexivity; try lia.
  apply IH. lia.
Qed.

Lemma drop_length (n : nat) (s : string) :
  String.length (Py.drop n s) = (String.length s - n)%nat.
Proof.
  revert n; induction s as [|c s IH]; intros [|n]; simpl; auto.
Qed.

Lemma take_app (p r : string) : Py.take (String.length p) (p +:+ r) = p.
Proof.
  induction p as [|c p IH]; [destruct r; reflexivity|].
  rewrite app_cons. simpl. now rewrite IH.
Qed.

Lemma drop_app (p r : string) : Py.drop (String.length p) (p +:+ r) = r.
Proof. induction p as [|c p IH]; [reflexivity|]. rewrite app_cons. exact IH. Qed.

(** Slices with bounds that are not negative are [take] after [drop]. *)
Lemma slice_nat (s : string) (lo hi : nat) :
  (lo <= hi)%nat ->
  Py.slice s (Z.of_nat lo) (Z.of_nat hi) = Py.take (hi - lo) (Py.drop lo s).
Proof.
  intros Hle. unfold Py.slice, Py.bound, Py.len.
  destruct (Z.ltb_spec (Z.of_nat lo) 0) as [?|_]; [lia|].
  destruct (Z.ltb_spec (Z.of_nat hi) 0) as [?|_]; [lia|].
  destruct (Nat.le_gt_cases hi (String.length s)) as [Hhi|Hhi].
  - rewrite !Z.min_l by lia. f_equal; [lia|]. f_equal. lia.
  - rewrite (Z.min_r (Z.of_nat hi)) by lia.
    destruct (Nat.le_gt_cases lo (String.length s)) as [Hlo|Hlo].
    + rewrite Z.min_l by lia. rewrite Nat2Z.id.
      rewrite !take_all; [reflexivity| |]; rewrite drop_length; lia.
    + rewrite Z.min_r by lia. rewrite Z.sub_diag, Nat2Z.id. simpl.
      rewrite (drop_all lo) by lia. now destruct (hi - lo)%nat.
Qed.

Lemma slice_from_nat (s : string) (lo : nat) :
  Py.slice_from s (Z.of_nat lo) = Py.drop lo s.
Proof.
  unfold Py.slice_from, Py.len.
  destruct (Nat.le_gt_cases lo (String.length s)) as [Hlo|Hlo].
  - rewrite slice_nat by assumption. apply take_all. rewrite drop_length. lia.
  - unfold Py.slice, Py.bound, Py.len.
    destruct (Z.ltb_spec (Z.of_nat lo) 0) as [?|_]; [lia|].
    destruct (Z.ltb_spec (Z.of_nat (String.length s)) 0) as [?|_]; [lia|].
    rewrite !Z.min_r by lia. rewrite Z.sub_diag, Nat2Z.id. simpl.
    now rewrite (drop_all lo) by lia.
Qed.

Lemma startswith_app (p r : string) : Py.startswith (p +:+ r) p = true.
Proof.
  induction p as [|c p IH]; [destruct r; reflexivity|].
  rewrite app_cons. simpl. now rewrite Ascii.eqb_refl.
Qed.

Lemma startswith_inv (s p : string) :
  Py.startswith s p = true -> s = p +:+ Py.drop (String.length p) s.
Proof.
  revert s; induction p as [|c p IH]; intros s H; [reflexivity|].
  destruct s as [|a s]; [discriminate|]. simpl in H.
  apply andb_true_iff in H as [Hc H]. apply Ascii.eqb_eq in Hc as ->.
  rewrite app_cons. simpl. f_equal. now apply IH.
Qed.

Lemma startswith_take (s p : string) :
  Py.startswith s p = String.eqb (Py.take (String.length p) s) p.
Proof.
  revert s; induction p as [|c p IH]; intros [|a s]; simpl; try reflexivity.
  rewrite IH, (Ascii.eqb_sym c a). reflexivity.
Qed.

Lemma find_from_app (pre post : string) (c : ascii) (i : Z) :
  occurs c pre = false ->
  Py.find_from (pre +:+ String c post) c i = i + Py.len pre.
Proof.
  revert i; induction pre as [|a pre IH]; intros i H.
  - rewrite app_nil. simpl. rewrite Ascii.eqb_refl. unfold Py.len. simpl. lia.
  - simpl in H. apply orb_false_iff in H as [Ha H].
    rewrite app_cons. simpl. rewrite Ha, IH by assumption.
    unfold Py.len. simpl String.length. lia.
Qed.

Lemma find_from_absent (s : string) (c : ascii) (i : Z) :
  occurs c s = false -> Py.find_from s c i = -1.
Proof.
  revert i; induction s as [|a s IH]; intros i H; [reflexivity|].
  simpl in *. apply orb_false_iff in H as [-> H]. now apply IH.
Qed.

Lemma partition_found (name raw : string) (sep : ascii) :
  occurs sep name = false ->
  Py.partition (name +:+ String sep raw) sep = (name, String sep "", raw).
Proof.
  induction name as [|a name IH]; intros H.
  - rewrite app_nil. simpl. now rewrite Ascii.eqb_refl.
  - simpl in H. apply orb_false_iff in H as [Ha H].
    rewrite app_cons. simpl. rewrite Ha, IH by assumption. reflexivity.
Qed.

Lemma partition_absent (s : string) (sep : ascii) :
  occurs sep s = false -> Py.partition s sep = (s, "", "").
Proof.
  induction s as [|a s IH]; intros H; [reflexivity|].
  simpl in *. apply orb_false_iff in H as [-> H]. now rewrite IH.
Qed.

Lemma slice_0_1 (s : string) :
  Py.slice s 0 1 = match s with "" => "" | String c _ => String c "" end.
Proof.
  change 0 with (Z.of_nat 0); change 1 with (Z.of_nat 1).
  rewrite slice_nat by lia. now destruct s.
Qed.

Lemma slice_1_2 (s : string) :
  Py.slice s 1 2 = match s with String _ (String c _) => String c "" | _ => "" end.
Proof.
  change 1 with (Z.of_nat 1); change 2 with (Z.of_nat 2).
  rewrite slice_nat by lia. now destruct s as [|? [|? ?]].
Qed.

Lemma slice_0_2 (s : string) : Py.slice s 0 2 = Py.take 2 s.
Proof.
  change 0 with (Z.of_nat 0); change 2 with (Z.of_nat 2).
  now rewrite slice_nat by lia.
Qed.

Lemma eqb_single (c d : ascii) :
  String.eqb (String c "") (String d "") = Ascii.eqb c d.
Proof. simpl. now destruct (Ascii.eqb c d). Qed.

Lemma prefixed_neq (p s : string) : p <> "" -> p +:+ s <> s.
Proof.
  intros Hp H. apply (f_equal String.length) in H. rewrite app_length in H.
  destruct p; [congruence|]. simpl in H. lia.
Qed.

Lemma single_semicolon_test (s : string) :
  String.eqb (Py.slice s 0 1) ";" && negb (String.eqb (Py.slice s 1 2) ";") = true
  <-> String.get 0 s = Some ";"%char /\ String.get 1 s <> Some ";"%char.
Proof.
  rewrite slice_0_1, slice_1_2.
  destruct s as [|c [|d r]]; simpl String.get.
  - simpl. intuition congruence.
  - rewrite eqb_single. simpl. rewrite andb_true_r.
    destruct (Ascii.eqb_spec c ";") as [->|Hc]; intuition congruence.
  - rewrite !eqb_single.
    destruct (Ascii.eqb_spec c ";") as [->|Hc], (Ascii.eqb_spec d ";") as [->|Hd];
      simpl; intuition congruence.
Qed.

Lemma blank_strip (s : string) : blank s = true -> Py.strip s = "".
Proof.
  intros Hb. destruct (strip_cases s) as [[_ Hs]|(ws & c & r & -> & Hw & Hc & _)];
    [assumption|].
  exfalso. induction ws as [|a ws IH]; simpl in *.
  - rewrite Hc in Hb. discriminate.
  - apply andb_true_iff in Hb as [_ Hb]. apply andb_true_iff in Hw as [_ Hw]. auto.
Qed.

Lemma uncomment_test (s : string) :
  String.eqb (Py.slice s 0 2) ";;" || negb (String.eqb (Py.slice s 0 1) ";") = true
  <-> Py.startswith s ";;" = true \/ Py.startswith s ";" = false.
Proof.
  rewrite slice_0_2. rewrite (startswith_take s ";;"), (startswith_take s ";").
  change (String.length ";;") with 2%nat. change (String.length ";") with 1%nat.
  replace (Py.slice s 0 1) with (Py.take 1 s) by (rewrite slice_0_1; now destruct s).
  rewrite orb_true_iff, negb_true_iff. reflexivity.
Qed.

Lemma drop_past (ws r : string) (c : ascii) :
  Py.drop (S (String.length ws)) (ws +:+ String c r) = r.
Proof. induction ws as [|a ws IH]; [reflexivity|]. rewrite app_cons. exact IH. Qed.

(** Removing the character at the position [find] returns, when the
    character occurs. *)
Lemma remove_first (pre post : string) (c : ascii) :
  occurs c pre = false ->
  let line := pre +:+ String c post in
  Py.slice line 0 (Py.find line c) +:+ Py.slice_from line (Py.find line c + 1)
  = pre +:+ post.
Proof.
  intros H line. unfold Py.find, line. rewrite find_from_app by assumption.
  rewrite Z.add_0_l. unfold Py.len.
  change 0 with (Z.of_nat 0). rewrite slice_nat by lia.
  rewrite Nat.sub_0_r. simpl Py.drop. rewrite take_app.
  replace (Z.of_nat (String.length pre) + 1)
    with (Z.of_nat (S (String.length pre))) by lia.
  rewrite slice_from_nat, drop_past. reflexivity.
Qed.

Lemma strip_prefixed (line : string) :
  Py.strip ("; " +:+ line) = ";"
  \/ exists r, Py.strip ("; " +:+ line) = String ";" (String " " r).
Proof.
  unfold Py.strip. change ("; " +:+ line) with (String ";" (String " " line)).
  change (Py.lstrip (String ";" (String " " line)))
    with (String ";" (String " " line)).
  rewrite rstrip_cons by reflexivity.
  destruct (rstrip_head " " line) as [->|[r ->]]; eauto.
Qed.

End StringFacts.

(** ** The two line transformations *)

(** C6: [commentCode] returns its input unchanged exactly when the first
    character of the stripped line is [;] and the second is not; in every
    other case, blank lines and lines whose stripped form starts with [;;]
    among them, it returns the line behind the two characters [; ]. *)
Theorem commentCode_cases (line : string) :
  ((alreadyCommented line /\ commentCode line = line)
   \/ (~ alreadyCommented line /\ commentCode line = "; " +:+ line
       /\ commentCode line <> line))
  /\ (blank line = true -> commentCode line = "; " +:+ line)
  /\ (Py.startswith (Py.strip line) ";;" = true ->
      commentCode line = "; " +:+ line).
Proof.
  assert (Hne : "; " +:+ line <> line) by now apply prefixed_neq.
  pose proof (single_semicolon_test (Py.strip line)) as Ht.
  fold (alreadyCommented line) in Ht. unfold commentCode.
  split; [|split].
  - destruct (_ && _).
    + left. split; [now apply Ht|reflexivity].
    + right. repeat split; auto. intros H. apply Ht in H. discriminate.
  - intros Hb. now rewrite (blank_strip _ Hb).
  - intros Hs. apply startswith_inv in Hs. rewrite Hs.
    now rewrite slice_0_1, slice_1_2.
Qed.

(** C7: [uncommentCode] returns its input unchanged exactly when the stripped
    line starts with [;;] or does not start with [;]; otherwise it returns
    the line without the first [;] it contains, every other character kept
    in place. *)
Theorem uncommentCode_cases (line : string) :
  (nothingToUncomment line /\ uncommentCode line = line)
  \/ (~ nothingToUncomment line /\ uncommentCode line <> line
      /\ exists pre post,
           line = pre +:+ String ";" post /\ occurs ";" pre = false
           /\ uncommentCode line = pre +:+ post).
Proof.
  pose proof (uncomment_test (Py.strip line)) as Ht.
  fold (nothingToUncomment line) in Ht. unfold uncommentCode.
  destruct (_ || _) eqn:Htest.
  - left. split; [now apply Ht|reflexivity].
  - right. assert (Hn : ~ nothingToUncomment line).
    { intros H. apply Ht in H. discriminate. }
    split; [assumption|].
    destruct (strip_cases line) as [[Hb Hs]|(ws & c & r & Hl & Hb & Hc & Hs)].
    + exfalso. apply Hn. right. now rewrite Hs.
    + assert (c = ";"%char) as ->.
      { destruct (Ascii.eqb_spec ";" c) as [<-|Hne]; [reflexivity|].
        exfalso. apply Hn. right. rewrite Hs. cbn [Py.startswith].
        destruct (Ascii.eqb_spec ";" c); [contradiction|reflexivity]. }
      pose proof (blank_occurs ";" ws Hb eq_refl) as Hocc.
      subst line. rewrite (remove_first ws r ";" Hocc). split.
      * intros H. apply (f_equal String.length) in H.
        rewrite !app_length in H. simpl in H. lia.
      * exists ws, r. auto.
Qed.

(** [commentCode] leaves a line it has prefixed alone, and [uncommentCode]
    takes the semicolon of the prefix away, not the space. *)
Lemma commentCode_prefixed (line : string) :
  commentCode ("; " +:+ line) = "; " +:+ line.
Proof.
  unfold commentCode.
  destruct (strip_prefixed line) as [->|[r ->]]; now rewrite slice_0_1, slice_1_2.
Qed.

Lemma uncommentCode_prefixed (line : string) :
  uncommentCode ("; " +:+ line) = " " +:+ line.
Proof.
  unfold uncommentCode.
  replace (_ || _) with false
    by (destruct (strip_prefixed line) as [->|[r ->]];
        now rewrite slice_0_1, slice_0_2).
  change ("; " +:+ line) with ("" +:+ String ";" (" " +:+ line)).
  now rewrite (remove_first "" (" " +:+ line) ";" eq_refl).
Qed.

(** C10: [commentCode] is idempotent: a second application leaves the result
    of the first unchanged. *)
Theorem commentCode_idempotent (line : string) :
  commentCode (commentCode line) = commentCode line.
Proof.
  unfold commentCode at 2 3.
  destruct (_ && _) eqn:Htest.
  - unfold commentCode. now rewrite Htest.
  - apply commentCode_prefixed.
Qed.

(** ** One line of the loop *)

Lemma hasDelim_semicolon (line : string) :
  hasDelim line = true -> String.get 0 (Py.strip line) = Some ";"%char.
Proof.
  unfold hasDelim. intros H. apply startswith_inv in H. now rewrite H.
Qed.

Lemma hasDelim_prefixed (line : string) : hasDelim ("; " +:+ line) = false.
Proof.
  unfold hasDelim. now destruct (strip_prefixed line) as [->|[r ->]].
Qed.

Lemma isEnd_hasDelim (line : string) : hasDelim line = false -> isEnd line = false.
Proof. unfold isEnd. now intros ->. Qed.

Lemma isEnd_name (line : string) :
  getDelimName line <> "END" -> isEnd line = false.
Proof.
  unfold isEnd. intros H. apply String.eqb_neq in H. rewrite H.
  apply andb_false_r.
Qed.

Lemma processLine_comment (config : gmap string value) (line : string) :
  endOfCode line = false -> hasDelim line = false ->
  processLine STATE_COMMENT config line
  = inr (STATE_COMMENT, config, commentCode line).
Proof.
  intros He Hd. unfold processLine.
  now rewrite He, (isEnd_hasDelim _ Hd), Hd.
Qed.

Lemma processLine_uncomment (config : gmap string value) (line : string) :
  endOfCode line = false -> hasDelim line = false ->
  processLine STATE_UNCOMMENT config line
  = inr (STATE_UNCOMMENT, config, uncommentCode line).
Proof.
  intros He Hd. unfold processLine.
  now rewrite He, (isEnd_hasDelim _ Hd), Hd.
Qed.

(** A directive other than [END] inside a block raises the error. *)
Lemma processLine_tag_in_block (st : state) (config : gmap string value)
    (line : string) :
  st = STATE_COMMENT \/ st = STATE_UNCOMMENT ->
  endOfCode line = false -> hasDelim line = true ->
  getDelimName line <> "END" ->
  processLine st config line = inl unexpectedTag.
Proof.
  intros Hst He Hd Hn. unfold processLine.
  rewrite He, (isEnd_name _ Hn), Hd. now destruct Hst as [->| ->].
Qed.

(** Nothing else raises. *)
Lemma processLine_raises (st : state) (config : gmap string value)
    (line : string) (e : ProcessingError) :
  processLine st config line = inl e ->
  (st = STATE_COMMENT \/ st = STATE_UNCOMMENT)
  /\ endOfCode line = false /\ hasDelim line = true
  /\ getDelimName line <> "END" /\ e = unexpectedTag.
Proof.
  unfold processLine.
  destruct (endOfCode line); [discriminate|].
  destruct (isEnd line) eqn:Hend; [discriminate|].
  assert (Hname : hasDelim line = true -> getDelimName line <> "END").
  { intros Hd Hn. unfold isEnd in Hend. rewrite Hd, Hn in Hend. discriminate. }
  destruct st; simpl.
  - destruct (hasDelim line); [|discriminate].
    destruct (String.eqb _ _); [discriminate|].
    destruct (config !! _) as [v|]; [destruct (truthy v)|]; discriminate.
  - destruct (getConfigTuple line). discriminate.
  - destruct (hasDelim line); [|discriminate]. intros [= <-]. auto 6.
  - destruct (hasDelim line); [|discriminate]. intros [= <-]. auto 6.
  - discriminate.
Qed.

Lemma processLine_rewriting (st st' : state) (config config' : gmap string value)
    (line lineOut : string) :
  processLine st config line = inr (st', config', lineOut) ->
  rewriting line lineOut.
Proof.
  unfold processLine, rewriting.
  destruct (endOfCode line); [intros [= _ _ <-]; auto|].
  destruct (isEnd line); [intros [= _ _ <-]; auto|].
  destruct st; simpl.
  - destruct (hasDelim line); [|intros [= _ _ <-]; auto].
    destruct (String.eqb _ _); [intros [= _ _ <-]; auto|].
    destruct (config !! _) as [v|]; [destruct (truthy v)|];
      intros [= _ _ <-]; auto.
  - destruct (getConfigTuple line). intros [= _ _ <-]; auto.
  - destruct (hasDelim line); [discriminate|]. intros [= _ _ <-]; auto.
  - destruct (hasDelim line); [discriminate|]. intros [= _ _ <-]; auto.
  - intros [= _ _ <-]; auto.
Qed.

(** ** The whole loop *)

Lemma processLines_app (st : state) (config : gmap string value)
    (output pre post : list string) :
  processLines st config output (pre ++ post)
  = match ended (processLines st config output pre) with
    | inl _ => processLines st config output pre
    | inr (st', config') =>
        processLines st' config' (written (processLines st config output pre)) post
    end.
Proof.
  revert st config output; induction pre as [|line pre IH]; intros st config output.
  - reflexivity.
  - simpl. destruct (processLine st config line) as [e|[[st' config'] lineOut]].
    + reflexivity.
    + apply IH.
Qed.

Lemma processLines_written (st : state) (config : gmap string value)
    (output lines : list string) (final : state * gmap string value) :
  ended (processLines st config output lines) = inr final ->
  exists outs, written (processLines st config output lines) = output ++ outs
               /\ Forall2 rewriting lines outs.
Proof.
  revert st config output; induction lines as [|line lines IH];
    intros st config output H.
  - exists []. split; [now rewrite app_nil_r|constructor].
  - simpl in *.
    destruct (processLine st config line) as [e|[[st' config'] lineOut]] eqn:Hl;
      [discriminate|].
    destruct (IH _ _ _ H) as (outs & Hw & Hf).
    exists (lineOut :: outs). split.
    + now rewrite Hw, <- app_assoc.
    + constructor; [|assumption]. eapply processLine_rewriting, Hl.
Qed.

Lemma processLines_cons (st st' : state) (config config' : gmap string value)
    (output rest : list string) (line lineOut : string) :
  processLine st config line = inr (st', config', lineOut) ->
  processLines st config output (line :: rest)
  = processLines st' config' (output ++ [lineOut]) rest.
Proof. intros H. simpl. now rewrite H. Qed.

(** ** Configuration entries *)

Lemma getDelimName_drop (line : string) :
  getDelimName line = Py.drop 5 (Py.strip line).
Proof. unfold getDelimName. change 5 with (Z.of_nat 5). apply slice_from_nat. Qed.

Lemma getConfigTuple_space (line name raw : string) :
  Py.drop 5 (Py.strip line) = name +:+ String " " raw ->
  occurs " " name = false ->
  getConfigTuple line
  = (name, if String.eqb name "VERSION" then VStr raw
           else VBool (String.eqb raw "TRUE")).
Proof.
  intros Hbody Hname. unfold getConfigTuple.
  change 5 with (Z.of_nat 5). rewrite slice_from_nat, Hbody.
  rewrite partition_found by assumption.
  now destruct (String.eqb name "VERSION").
Qed.

Lemma getConfigTuple_no_space (line : string) :
  occurs " " (Py.drop 5 (Py.strip line)) = false ->
  getConfigTuple line
  = (Py.drop 5 (Py.strip line),
     if String.eqb (Py.drop 5 (Py.strip line)) "VERSION" then VStr ""
     else VBool false).
Proof.
  intros Hbody. unfold getConfigTuple.
  change 5 with (Z.of_nat 5). rewrite slice_from_nat.
  rewrite partition_absent by assumption.
  now destruct (String.eqb _ "VERSION").
Qed.

Lemma processLine_config (config : gmap string value) (line : string) :
  endOfCode line = false -> isEnd line = false ->
  processLine STATE_CONFIG config line
  = inr (STATE_CONFIG,
         <[(getConfigTuple line).1 := (getConfigTuple line).2]> config, line).
Proof.
  intros He Hend. unfold processLine. rewrite He, Hend. simpl.
  now destruct (getConfigTuple line).
Qed.

Lemma rstrip_blank (b : string) : blank b = true -> Py.rstrip b = "".
Proof.
  induction b as [|c b IH]; [reflexivity|]. simpl. intros H.
  apply andb_true_iff in H as [Hc Hb]. now rewrite IH, Hc.
Qed.

Lemma rstrip_app_blank (s b : string) :
  blank b = true -> Py.rstrip (s +:+ b) = Py.rstrip s.
Proof.
  intros Hb. induction s as [|c s IH].
  - rewrite app_nil. now apply rstrip_blank.
  - rewrite app_cons. simpl. now rewrite IH.
Qed.

Lemma rstrip_app (s t : string) :
  Py.rstrip t <> "" -> Py.rstrip (s +:+ t) = s +:+ Py.rstrip t.
Proof.
  intros Ht. induction s as [|c s IH]; [reflexivity|].
  rewrite !app_cons. simpl. rewrite IH.
  destruct (s +:+ Py.rstrip t) eqn:Hs; [|reflexivity].
  exfalso. destruct s; [now rewrite app_nil in Hs|discriminate].
Qed.

(** The entry line [;; $@FOO tok] and its stripped form, for a token that
    does not end in white space. *)
Lemma strip_entry (tok : string) :
  Py.rstrip tok = tok -> tok <> "" ->
  Py.strip (ln (";; $@FOO " +:+ tok)) = ";; $@FOO " +:+ tok.
Proof.
  intros Hr Hne. unfold Py.strip, ln.
  change (Py.lstrip ((";; $@FOO " +:+ tok) +:+ String "010" ""))
    with ((";; $@FOO " +:+ tok) +:+ String "010" "").
  rewrite rstrip_app_blank by reflexivity.
  rewrite rstrip_app by congruence. now rewrite Hr.
Qed.

Lemma processLine_entry (config : gmap string value) (tok : string) :
  Py.rstrip tok = tok ->
  processLine STATE_CONFIG config (ln (";; $@FOO " +:+ tok))
  = inr (STATE_CONFIG, <["FOO" := VBool (String.eqb tok "TRUE")]> config,
         ln (";; $@FOO " +:+ tok)).
Proof.
  intros Hr. destruct (decide (tok = "")) as [->|Hne]; [reflexivity|].
  assert (Hs := strip_entry tok Hr Hne).
  rewrite processLine_config.
  - rewrite (getConfigTuple_space _ "FOO" tok); [reflexivity| |reflexivity].
    now rewrite Hs.
  - reflexivity.
  - apply isEnd_name. rewrite getDelimName_drop, Hs. discriminate.
Qed.

(** ** Runs of the program *)

(** C2, as the program has it: a line whose first character after the
    leading white space is not [;] (so it is no directive) and that is not
    the sentinel is written as [; ] followed by the line in the COMMENT
    state, and that output, read in the UNCOMMENT state, is written as the
    line behind one space: the semicolon of the prefix goes, its space
    stays. *)
Theorem comment_then_uncomment (config : gmap string value) (L : string) :
  endOfCode L = false ->
  String.get 0 (Py.strip L) <> Some ";"%char ->
  hasDelim L = false
  /\ commentCode L = "; " +:+ L
  /\ processLine STATE_COMMENT config L
     = inr (STATE_COMMENT, config, "; " +:+ L)
  /\ uncommentCode (commentCode L) = " " +:+ L
  /\ processLine STATE_UNCOMMENT config ("; " +:+ L)
     = inr (STATE_UNCOMMENT, config, " " +:+ L).
Proof.
  intros He Hsemi.
  assert (Hd : hasDelim L = false).
  { destruct (hasDelim L) eqn:Hd; [|reflexivity].
    now apply hasDelim_semicolon in Hd. }
  assert (Hc : commentCode L = "; " +:+ L).
  { unfold commentCode. destruct (_ && _) eqn:Ht; [|reflexivity].
    apply single_semicolon_test in Ht as [Ht _]. contradiction. }
  repeat split.
  - assumption.
  - assumption.
  - rewrite processLine_comment by assumption. now rewrite Hc.
  - rewrite Hc. apply uncommentCode_prefixed.
  - rewrite processLine_uncomment.
    + now rewrite uncommentCode_prefixed.
    + reflexivity.
    + apply hasDelim_prefixed.
Qed.

Lemma comment_then_uncomment_witness :
  uncommentCode (commentCode (ln "x = 1")) = " " +:+ ln "x = 1".
Proof.
  apply (comment_then_uncomment ∅ (ln "x = 1")).
  - reflexivity.
  - vm_compute. discriminate.
Defined.

(** C2 as the specification words it fails: the round trip through
    [commentCode] and [uncommentCode] does not give the line back. *)
Lemma round_trip_not_identity :
  hasDelim (ln "x = 1") = false
  /\ endOfCode (ln "x = 1") = false
  /\ String.get 0 (Py.strip (ln "x = 1")) <> Some ";"%char
  /\ commentCode (ln "x = 1") = "; " +:+ ln "x = 1"
  /\ uncommentCode (commentCode (ln "x = 1")) <> ln "x = 1".
Proof. vm_compute. repeat split; discriminate. Qed.

(** C3, as the program has it: a directive other than [END] met in the
    COMMENT or UNCOMMENT state (and not starting with the sentinel) raises
    [ProcessingError] with the value [***Unexpected preprocessor tag found],
    three asterisks included; the output file then holds what was written
    for the lines before it and nothing for the line or for any later one;
    and no line raises for any other reason. *)
Theorem unexpected_tag_halts (pre post : list string) (line : string)
    (st : state) (config : gmap string value) :
  ended (processFile pre) = inr (st, config) ->
  st = STATE_COMMENT \/ st = STATE_UNCOMMENT ->
  hasDelim line = true ->
  getDelimName line <> "END" ->
  endOfCode line = false ->
  processLine st config line
  = inl (mkProcessingError "***Unexpected preprocessor tag found")
  /\ processFile (pre ++ line :: post)
     = mkRun (written (processFile pre))
         (inl (mkProcessingError "***Unexpected preprocessor tag found"))
  /\ length (written (processFile pre)) = length pre
  /\ (forall st' config' l e,
        processLine st' config' l = inl e ->
        (st' = STATE_COMMENT \/ st' = STATE_UNCOMMENT)
        /\ hasDelim l = true /\ getDelimName l <> "END"
        /\ endOfCode l = false
        /\ e = mkProcessingError "***Unexpected preprocessor tag found").
Proof.
  intros Hpre Hst Hd Hn He.
  pose proof (processLine_tag_in_block st config line Hst He Hd Hn) as Hl.
  repeat split.
  - exact Hl.
  - unfold processFile in *. rewrite processLines_app, Hpre. simpl.
    now rewrite Hl.
  - unfold processFile in *.
    destruct (processLines_written _ _ _ _ _ Hpre) as (outs & -> & Hf).
    simpl. symmetry. eapply Forall2_length, Hf.
  - apply processLine_raises in H. tauto.
  - apply processLine_raises in H. tauto.
  - apply processLine_raises in H. tauto.
  - apply processLine_raises in H. tauto.
  - apply processLine_raises in H. tauto.
Qed.

Lemma unexpected_tag_halts_witness :
  processFile ([ln ";; $@CONFIG"; ln ";; $@DEBUG FALSE"; ln ";; $@END";
                ln ";; $@DEBUG"] ++ ln ";; $@UNKNOWN" :: [ln "x = 1"])
  = mkRun [ln ";; $@CONFIG"; ln ";; $@DEBUG FALSE"; ln ";; $@END";
           ln ";; $@DEBUG"]
      (inl (mkProcessingError "***Unexpected preprocessor tag found")).
Proof.
  refine (proj1 (proj2 (unexpected_tag_halts
    [ln ";; $@CONFIG"; ln ";; $@DEBUG FALSE"; ln ";; $@END"; ln ";; $@DEBUG"]
    [ln "x = 1"] (ln ";; $@UNKNOWN") STATE_COMMENT
    (<["DEBUG" := VBool false]> ∅) _ _ _ _ _))).
  - vm_compute. reflexivity.
  - left. reflexivity.
  - reflexivity.
  - vm_compute. discriminate.
  - reflexivity.
Defined.

(** C3 as the specification words it fails only in the text of the message:
    the value of the error is not the bare sentence. *)
Lemma unexpected_tag_message_has_asterisks :
  hasDelim (ln ";; $@UNKNOWN") = true
  /\ getDelimName (ln ";; $@UNKNOWN") <> "END"
  /\ endOfCode (ln ";; $@UNKNOWN") = false
  /\ processLine STATE_COMMENT (<["DEBUG" := VBool false]> ∅) (ln ";; $@UNKNOWN")
     <> inl (mkProcessingError "Unexpected preprocessor tag found").
Proof. vm_compute. repeat split; discriminate. Qed.

(** C8: when no error is raised, the output file holds one line for each
    line of the input, in the order of the input: the line itself, or its
    rewriting by [commentCode] or by [uncommentCode]. *)
Theorem one_output_line_per_input_line (lines : list string)
    (final : state * gmap string value) :
  ended (processFile lines) = inr final ->
  length (written (processFile lines)) = length lines
  /\ Forall2 rewriting lines (written (processFile lines)).
Proof.
  intros H. unfold processFile in *.
  destruct (processLines_written _ _ _ _ _ H) as (outs & -> & Hf).
  simpl. split; [symmetry; eapply Forall2_length|]; exact Hf.
Qed.

Lemma one_output_line_per_input_line_witness :
  length (written (processFile
    [ln ";; $@CONFIG"; ln ";; $@FEATURE TRUE"; ln ";; $@END";
     ln ";; $@FEATURE"; ln "x = 1"; ln ";; $@END"; ln "@#$#@#$#@"; ln "tail"]))
  = 8%nat.
Proof.
  refine (proj1 (one_output_line_per_input_line
    [ln ";; $@CONFIG"; ln ";; $@FEATURE TRUE"; ln ";; $@END";
     ln ";; $@FEATURE"; ln "x = 1"; ln ";; $@END"; ln "@#$#@#$#@"; ln "tail"]
    (STATE_ENDOFCODE, <["FEATURE" := VBool true]> ∅) _)).
  vm_compute. reflexivity.
Defined.

(** C5: in the CONFIG state a line whose stripped body after the marker is
    [name], one space and [raw] stores [raw] itself under [VERSION] and the
    boolean [raw == "TRUE"] under any other name; the lines [;; $@CONFIG],
    [;; $@FOO tok], [;; $@END] leave the dictionary with [FOO] bound to
    true when [tok] is [TRUE] and to false for any other token. *)
Theorem config_entry_stored (config : gmap string value)
    (line name raw tok : string) :
  endOfCode line = false ->
  isEnd line = false ->
  Py.drop 5 (Py.strip line) = name +:+ String " " raw ->
  occurs " " name = false ->
  Py.rstrip tok = tok ->
  processLine STATE_CONFIG config line
  = inr (STATE_CONFIG,
         <[name := if String.eqb name "VERSION" then VStr raw
                   else VBool (String.eqb raw "TRUE")]> config,
         line)
  /\ ended (processFile [ln ";; $@CONFIG"; ln ";; $@FOO TRUE"; ln ";; $@END"])
     = inr (STATE_NORMAL, <["FOO" := VBool true]> ∅)
  /\ (tok <> "TRUE" ->
      ended (processFile [ln ";; $@CONFIG"; ln (";; $@FOO " +:+ tok);
                          ln ";; $@END"])
      = inr (STATE_NORMAL, <["FOO" := VBool false]> ∅)).
Proof.
  intros He Hend Hbody Hname Htok. split; [|split].
  - rewrite processLine_config by assumption.
    now rewrite (getConfigTuple_space _ _ _ Hbody Hname).
  - reflexivity.
  - intros Hne. apply String.eqb_neq in Hne. unfold processFile.
    rewrite (processLines_cons _ STATE_CONFIG _ ∅ _ _ _ (ln ";; $@CONFIG"))
      by reflexivity.
    rewrite (processLines_cons _ _ _ _ _ _ _ _ (processLine_entry _ tok Htok)).
    rewrite Hne. reflexivity.
Qed.

Lemma config_entry_stored_witness :
  processLine STATE_CONFIG ∅ (ln ";; $@VERSION 1.2")
  = inr (STATE_CONFIG, <["VERSION" := VStr "1.2"]> ∅, ln ";; $@VERSION 1.2")
  /\ ended (processFile [ln ";; $@CONFIG"; ln (";; $@FOO " +:+ "true");
                         ln ";; $@END"])
     = inr (STATE_NORMAL, <["FOO" := VBool false]> ∅).
Proof.
  destruct (config_entry_stored ∅ (ln ";; $@VERSION 1.2") "VERSION" "1.2" "true"
              eq_refl eq_refl eq_refl eq_refl eq_refl) as (Hentry & _ & Hother).
  split; [exact Hentry|]. apply Hother. discriminate.
Defined.

(** C9: in the CONFIG state a line whose stripped form holds no space after
    its first five characters has an empty raw value: what is left of the
    stripped form is stored as a name bound to false, or to the empty
    string when that name is [VERSION]. *)
Theorem config_entry_without_value (config : gmap string value) (line : string) :
  endOfCode line = false ->
  isEnd line = false ->
  occurs " " (Py.drop 5 (Py.strip line)) = false ->
  Py.partition (Py.slice_from (Py.strip line) 5) " "
  = (Py.drop 5 (Py.strip line), "", "")
  /\ processLine STATE_CONFIG config line
     = inr (STATE_CONFIG,
            <[Py.drop 5 (Py.strip line) :=
                if String.eqb (Py.drop 5 (Py.strip line)) "VERSION"
                then VStr "" else VBool false]> config,
            line).
Proof.
  intros He Hend Hbody. split.
  - change 5 with (Z.of_nat 5). rewrite slice_from_nat.
    now apply partition_absent.
  - rewrite processLine_config by assumption.
    now rewrite (getConfigTuple_no_space _ Hbody).
Qed.

Lemma config_entry_without_value_witness :
  processLine STATE_CONFIG ∅ (ln ";; $@FOO")
  = inr (STATE_CONFIG, <["FOO" := VBool false]> ∅, ln ";; $@FOO")
  /\ processLine STATE_CONFIG ∅ (ln ";; $@VERSION")
     = inr (STATE_CONFIG, <["VERSION" := VStr ""]> ∅, ln ";; $@VERSION")
  /\ processLine STATE_CONFIG ∅ (ln "x")
     = inr (STATE_CONFIG, <["" := VBool false]> ∅, ln "x").
Proof.
  split; [|split].
  - apply (config_entry_without_value ∅ (ln ";; $@FOO")); reflexivity.
  - apply (config_entry_without_value ∅ (ln ";; $@VERSION")); reflexivity.
  - apply (config_entry_without_value ∅ (ln "x")); reflexivity.
Defined.

(** C4, as the program has it: the name of a directive is what follows the
    marker in the stripped line, white space included; the line counts as
    the [END] directive exactly when its stripped form is [;; $@END], and a
    line whose stripped form is [;; $@ END] has the name [ END] and does
    not. *)
Theorem directive_name_untrimmed (line : string) :
  hasDelim line = true ->
  Py.strip line = ";; $@" +:+ getDelimName line
  /\ (isEnd line = true <-> Py.strip line = ";; $@END")
  /\ (Py.strip line = ";; $@ END" ->
      getDelimName line = " END" /\ isEnd line = false).
Proof.
  intros Hd. assert (Hs : Py.strip line = ";; $@" +:+ getDelimName line).
  { rewrite getDelimName_drop. now apply startswith_inv in Hd. }
  split; [exact Hs|]. unfold isEnd. rewrite Hd. simpl andb. split.
  - rewrite String.eqb_eq. split.
    + intros Hn. now rewrite Hs, Hn.
    + intros H. now rewrite getDelimName_drop, H.
  - intros H. rewrite getDelimName_drop, H. split; reflexivity.
Qed.

Lemma directive_name_untrimmed_witness :
  getDelimName (ln ";; $@ END") = " END" /\ isEnd (ln ";; $@ END") = false.
Proof.
  apply (directive_name_untrimmed (ln ";; $@ END")); reflexivity.
Defined.

(** C4 as the specification words it fails: the name keeps its leading
    white space, so [;; $@ END] does not close a block but is an unexpected
    tag inside it. *)
Lemma spaced_END_is_not_END :
  hasDelim (ln ";; $@ END") = true
  /\ Py.strip (ln ";; $@ END") = ";; $@ END"
  /\ getDelimName (ln ";; $@ END")
     <> Py.lstrip (Py.drop 5 (Py.strip (ln ";; $@ END")))
  /\ isEnd (ln ";; $@ END") = false
  /\ processLine STATE_COMMENT ∅ (ln ";; $@ END") = inl unexpectedTag.
Proof. vm_compute. repeat split; discriminate. Qed.

(** ** After the sentinel *)

(** In the ENDOFCODE state every line that is not an [END] directive is
    written as it is and leaves the state alone. *)
Lemma processLine_after_sentinel (config : gmap string value) (line : string) :
  isEnd line = false ->
  processLine STATE_ENDOFCODE config line = inr (STATE_ENDOFCODE, config, line).
Proof. intros H. unfold processLine. rewrite H. now destruct (endOfCode line). Qed.

(** An [END] directive leaves the ENDOFCODE state like any other. *)
Lemma processLine_END_after_sentinel (config : gmap string value) (line : string) :
  endOfCode line = false -> isEnd line = true ->
  processLine STATE_ENDOFCODE config line = inr (STATE_NORMAL, config, line).
Proof. intros He H. unfold processLine. now rewrite He, H. Qed.

(** C1 does not hold of the program: after the sentinel an [END] directive
    puts the state back to NORMAL, the flag reference that follows opens a
    COMMENT block, and the next line is written with the prefix [; ]. *)
Theorem END_reopens_after_sentinel :
  ended (processFile [ln ";; $@CONFIG"; ln ";; $@FOO FALSE"; ln ";; $@END";
                      ln "@#$#@#$#@"])
  = inr (STATE_ENDOFCODE, <["FOO" := VBool false]> ∅)
  /\ ended (processFile [ln ";; $@CONFIG"; ln ";; $@FOO FALSE"; ln ";; $@END";
                         ln "@#$#@#$#@"; ln ";; $@END"])
     = inr (STATE_NORMAL, <["FOO" := VBool false]> ∅)
  /\ processFile [ln ";; $@CONFIG"; ln ";; $@FOO FALSE"; ln ";; $@END";
                  ln "@#$#@#$#@"; ln ";; $@END"; ln ";; $@FOO"; ln "x = 1"]
     = mkRun [ln ";; $@CONFIG"; ln ";; $@FOO FALSE"; ln ";; $@END";
              ln "@#$#@#$#@"; ln ";; $@END"; ln ";; $@FOO"; ln "; x = 1"]
         (inr (STATE_COMMENT, <["FOO" := VBool false]> ∅)).
Proof. vm_compute. repeat split. Qed.

(** ** The default name of the output file *)

Lemma rfind_from_absent (s : string) (c : ascii) (i : Z) :
  occurs c s = false -> Py.rfind_from s c i = -1.
Proof.
  revert i; induction s as [|a s IH]; intros i H; [reflexivity|].
  simpl in *. apply orb_false_iff in H as [-> H]. now rewrite IH.
Qed.

Lemma rfind_from_last (pre post : string) (c : ascii) (i : Z) :
  0 <= i -> occurs c post = false ->
  Py.rfind_from (pre +:+ String c post) c i = i + Py.len pre.
Proof.
  revert i; induction pre as [|a pre IH]; intros i Hi H.
  - rewrite app_nil. simpl. rewrite rfind_from_absent by assumption.
    rewrite Ascii.eqb_refl. unfold Py.len. simpl. lia.
  - rewrite app_cons. simpl. rewrite IH by (assumption || lia).
    unfold Py.len. simpl String.length.
    destruct (Z.eqb_spec (i + 1 + Z.of_nat (String.length pre)) (-1)); lia.
Qed.

Lemma last_occurrence (s : string) (c : ascii) :
  occurs c s = true ->
  exists pre post, s = pre +:+ String c post /\ occurs c post = false.
Proof.
  induction s as [|a s IH]; [discriminate|]. simpl. intros H.
  destruct (occurs c s) eqn:Hs.
  - destruct (IH eq_refl) as (pre & post & -> & Hp).
    exists (String a pre), post. auto.
  - rewrite orb_false_r in H. apply Ascii.eqb_eq in H as ->.
    exists "", s. auto.
Qed.

Lemma snoc_cases (s : string) :
  s = "" \/ exists init c, s = init +:+ String c "".
Proof.
  induction s as [|a s IH]; [now left|]. right.
  destruct IH as [->|(init & c & ->)].
  - now exists "", a.
  - now exists (String a init), c.
Qed.

(** [s[0:-1]] and [s[-1:]] of a string that is not empty. *)
Lemma slice_but_last (init : string) (c : ascii) :
  Py.slice (init +:+ String c "") 0 (-1) = init.
Proof.
  unfold Py.slice, Py.bound, Py.len. rewrite app_length. simpl String.length.
  change (-1 <? 0) with true. change (0 <? 0) with false. cbv iota.
  rewrite Z.min_l, Z.max_r by lia. simpl Py.drop.
  replace (Z.to_nat _) with (String.length init) by lia. apply take_app.
Qed.

Lemma slice_last (init : string) (c : ascii) :
  Py.slice_from (init +:+ String c "") (-1) = String c "".
Proof.
  unfold Py.slice_from, Py.slice, Py.bound, Py.len.
  rewrite app_length. simpl String.length.
  change (-1 <? 0) with true. cbv iota.
  destruct (Z.ltb_spec (Z.of_nat (String.length init + 1)) 0) as [?|_]; [lia|].
  rewrite Z.min_id, Z.max_r by lia.
  replace (Z.to_nat (_ - _)) with 1%nat by lia.
  replace (Z.to_nat _) with (String.length init) by lia.
  now rewrite drop_app.
Qed.

Lemma defaultOutFileName_dot (stem ext : string) :
  occurs "." ext = false ->
  defaultOutFileName (stem +:+ String "." ext)
  = stem +:+ ".post" +:+ String "." ext.
Proof.
  intros H. unfold defaultOutFileName, Py.rfind.
  rewrite rfind_from_last by (assumption || lia). rewrite Z.add_0_l.
  unfold Py.len. change 0 with (Z.of_nat 0).
  rewrite slice_nat, slice_from_nat by lia.
  rewrite Nat.sub_0_r. simpl Py.drop at 1. now rewrite take_app, drop_app.
Qed.

Lemma defaultOutFileName_no_dot (init : string) (c : ascii) :
  occurs "." (init +:+ String c "") = false ->
  defaultOutFileName (init +:+ String c "")
  = init +:+ ".post" +:+ String c "".
Proof.
  intros H. unfold defaultOutFileName, Py.rfind.
  rewrite rfind_from_absent by assumption.
  now rewrite slice_but_last, slice_last.
Qed.

(** X1: when the input name holds a dot, the default output name has
    [.post] before the last dot of the input name. *)
Theorem default_name_before_extension (stem ext : string) :
  occurs "." ext = false ->
  defaultOutFileName (stem +:+ String "." ext)
  = stem +:+ ".post" +:+ String "." ext.
Proof. apply defaultOutFileName_dot. Qed.

Lemma default_name_before_extension_witness :
  defaultOutFileName ("model" +:+ String "." "nlogo") = "model.post.nlogo"
  /\ defaultOutFileName ("src.d/a.b" +:+ String "." "c") = "src.d/a.b.post.c".
Proof.
  split.
  - apply (default_name_before_extension "model" "nlogo"). reflexivity.
  - apply (default_name_before_extension "src.d/a.b" "c"). reflexivity.
Defined.

(** X2: when the input name holds no dot, [rfind] returns [-1] and the
    slices count from the end: [.post] goes in before the last character of
    the name. *)
Theorem default_name_without_dot (init : string) (c : ascii) :
  occurs "." (init +:+ String c "") = false ->
  defaultOutFileName (init +:+ String c "")
  = init +:+ ".post" +:+ String c "".
Proof. apply defaultOutFileName_no_dot. Qed.

Lemma default_name_without_dot_witness :
  defaultOutFileName ("mode" +:+ String "l" "") = "mode.postl".
Proof. apply (default_name_without_dot "mode" "l"). reflexivity. Defined.

Lemma defaultOutFileName_length (inFileName : string) :
  String.length (defaultOutFileName inFileName)
  = (String.length inFileName + 5)%nat.
Proof.
  destruct (occurs "." inFileName) eqn:Hdot.
  - destruct (last_occurrence _ _ Hdot) as (stem & ext & -> & Hext).
    rewrite defaultOutFileName_dot by assumption.
    rewrite !app_length. simpl. lia.
  - destruct (snoc_cases inFileName) as [->|(init & c & ->)]; [reflexivity|].
    rewrite defaultOutFileName_no_dot by assumption.
    rewrite !app_length. simpl. lia.
Qed.

Lemma defaultOutFileName_neq (inFileName : string) :
  defaultOutFileName inFileName <> inFileName.
Proof.
  intros H. apply (f_equal String.length) in H.
  rewrite defaultOutFileName_length in H. lia.
Qed.

(** X3: the default output name is five characters longer than the input
    name, whatever the input name is, so it is never the input name. *)
Theorem default_name_is_another_file (inFileName : string) :
  String.length (defaultOutFileName inFileName)
  = (String.length inFileName + 5)%nat
  /\ defaultOutFileName inFileName <> inFileName.
Proof. split; [apply defaultOutFileName_length|apply defaultOutFileName_neq]. Qed.

(** ** The files of a run *)








(** ** The command line *)

Lemma scanOpts_known (opts : list (string * string)) (input output : option string)
    (verbose : bool) :
  forallb knownOpt opts = true ->
  scanOpts opts input output verbose
  = inr (match lastArg "-i" opts with Some a => Some a | None => input end,
         match lastArg "-o" opts with Some a => Some a | None => output end,
         verbose && negb (given "-s" opts)).
Proof.
  revert input output verbose.
  induction opts as [|[o a] opts IH]; intros input output verbose Hk.
  - simpl. now rewrite andb_true_r.
  - simpl in Hk. apply andb_true_iff in Hk as [Ho Hk]. unfold knownOpt in Ho.
    simpl in Ho. cbn [scanOpts lastArg given existsb fst].
    destruct (String.eqb_spec o "-s") as [->|Hs].
    + rewrite IH by assumption. simpl.
      rewrite andb_false_r.
      now destruct (lastArg "-i" opts), (lastArg "-o" opts).
    + destruct (String.eqb_spec o "-o") as [->|Ho'].
      * rewrite IH by assumption. simpl.
        now destruct (lastArg "-i" opts), (lastArg "-o" opts).
      * destruct (String.eqb_spec o "-i") as [->|Hi]; [|discriminate].
        rewrite IH by assumption. simpl.
        now destruct (lastArg "-i" opts), (lastArg "-o" opts).
Qed.

Lemma scanOpts_unknown (opts : list (string * string)) (input output : option string)
    (verbose : bool) :
  forallb knownOpt opts = false ->
  scanOpts opts input output verbose = inl "unhandled option".
Proof.
  revert input output verbose.
  induction opts as [|[o a] opts IH]; intros input output verbose Hk;
    [discriminate|].
  simpl in Hk. unfold knownOpt in Hk. cbn [scanOpts fst] in *.
  destruct (String.eqb o "-s"); [now apply IH|].
  destruct (String.eqb o "-o"); [now apply IH|].
  destruct (String.eqb o "-i"); [now apply IH|reflexivity].
Qed.

(** X7: when every option is [-i], [-o] or [-s], [main] calls [processFile]
    exactly when both [-i] and [-o] are given, with the argument of the last
    [-i], the argument of the last [-o] (so never with the default output
    name), and with [verbose] off exactly when [-s] is given somewhere;
    otherwise it fails the assertion [Missing parameters]. *)
Theorem main_known_options (opts : list (string * string)) :
  forallb knownOpt opts = true ->
  main (inr opts)
  = match lastArg "-i" opts, lastArg "-o" opts with
    | Some input, Some output =>
        CallProcessFile input (negb (given "-s" opts)) output
    | _, _ => AssertionError "Missing parameters"
    end.
Proof.
  intros Hk. unfold main. rewrite scanOpts_known by assumption.
  now destruct (lastArg "-i" opts), (lastArg "-o" opts).
Qed.

Lemma main_known_options_witness :
  main (inr [("-i", "a.nlogo"); ("-s", ""); ("-o", "b.nlogo"); ("-i", "c.nlogo")])
  = CallProcessFile "c.nlogo" false "b.nlogo".
Proof.
  apply (main_known_options
           [("-i", "a.nlogo"); ("-s", ""); ("-o", "b.nlogo"); ("-i", "c.nlogo")]).
  reflexivity.
Defined.

(** ** What the loop keeps *)

(** X8: outside the COMMENT and UNCOMMENT states no line raises and every
    line is written as it was read; only inside a block can the output
    differ from the input. *)
Theorem outside_blocks_unchanged (st : state) (config : gmap string value)
    (line : string) :
  st <> STATE_COMMENT -> st <> STATE_UNCOMMENT ->
  exists st' config', processLine st config line = inr (st', config', line).
Proof.
  intros Hc Hu. unfold processLine.
  destruct (endOfCode line); [eauto|].
  destruct (isEnd line); [eauto|].
  destruct st; try contradiction; simpl.
  - destruct (hasDelim line); [|eauto].
    destruct (String.eqb _ _); [eauto|].
    destruct (config !! _) as [v|]; [destruct (truthy v)|]; eauto.
  - destruct (getConfigTuple line). eauto.
  - eauto.
Qed.

Lemma outside_blocks_unchanged_witness :
  exists st' config',
    processLine STATE_NORMAL (<["FOO" := VBool false]> ∅) (ln ";; $@FOO")
    = inr (st', config', ln ";; $@FOO").
Proof.
  apply (outside_blocks_unchanged STATE_NORMAL); discriminate.
Defined.

Lemma processLines_plain (st : state) (config : gmap string value)
    (output lines : list string) :
  st = STATE_NORMAL \/ st = STATE_ENDOFCODE ->
  Forall (fun line => hasDelim line = false) lines ->
  exists st', (st' = STATE_NORMAL \/ st' = STATE_ENDOFCODE)
    /\ processLines st config output lines
       = mkRun (output ++ lines) (inr (st', config)).
Proof.
  intros Hst Hall. revert st output Hst.
  induction Hall as [|line lines Hd _ IH]; intros st output Hst.
  - exists st. simpl. now rewrite app_nil_r.
  - assert (Hl : exists st', (st' = STATE_NORMAL \/ st' = STATE_ENDOFCODE)
                  /\ processLine st config line = inr (st', config, line)).
    { unfold processLine. rewrite (isEnd_hasDelim _ Hd), Hd.
      destruct (endOfCode line); [eauto|].
      destruct Hst as [-> | ->]; simpl; eauto. }
    destruct Hl as (st1 & Hst1 & Hl).
    destruct (IH st1 (output ++ [line]) Hst1) as (st' & Hst' & Hrun).
    exists st'. split; [assumption|].
    simpl. rewrite Hl, Hrun. now rewrite <- app_assoc.
Qed.

(** X9: a file without any directive line comes out as it went in: every
    line is written unchanged, nothing is raised, the dictionary stays
    empty and the state ends as NORMAL or, after a sentinel, ENDOFCODE. *)
Theorem file_without_directives_unchanged (lines : list string) :
  Forall (fun line => hasDelim line = false) lines ->
  exists st, (st = STATE_NORMAL \/ st = STATE_ENDOFCODE)
    /\ processFile lines = mkRun lines (inr (st, ∅)).
Proof.
  intros Hall. unfold processFile.
  destruct (processLines_plain STATE_NORMAL ∅ [] lines) as (st & Hst & Hrun);
    auto.
  exists st. now rewrite Hrun.
Qed.

Lemma file_without_directives_unchanged_witness :
  exists st, (st = STATE_NORMAL \/ st = STATE_ENDOFCODE)
    /\ processFile [ln "; a comment"; ln "x = 1"; ln "@#$#@#$#@"; ln "; tail"]
       = mkRun [ln "; a comment"; ln "x = 1"; ln "@#$#@#$#@"; ln "; tail"]
           (inr (st, ∅)).
Proof.
  apply (file_without_directives_unchanged
           [ln "; a comment"; ln "x = 1"; ln "@#$#@#$#@"; ln "; tail"]).
  repeat constructor.
Defined.

Lemma processLines_extends (st : state) (config : gmap string value)
    (output lines : list string) :
  exists outs, written (processLines st config output lines) = output ++ outs.
Proof.
  revert st config output; induction lines as [|line lines IH];
    intros st config output.
  - exists []. simpl. now rewrite app_nil_r.
  - simpl. destruct (processLine st config line) as [e|[[st' config'] lineOut]].
    + exists []. simpl. now rewrite app_nil_r.
    + destruct (IH st' config' (output ++ [lineOut])) as (outs & ->).
      exists (lineOut :: outs). now rewrite <- app_assoc.
Qed.

(** X10: the output is written in one forward pass: what is written for the
    first lines of a file does not depend on the lines after them, and the
    output of the longer input starts with the output of the shorter. *)
Theorem output_never_revised (pre post : list string) :
  exists more,
    written (processFile (pre ++ post)) = written (processFile pre) ++ more.
Proof.
  unfold processFile. rewrite processLines_app.
  destruct (ended (processLines STATE_NORMAL ∅ [] pre)) as [e|[st config]].
  - exists []. now rewrite app_nil_r.
  - apply processLines_extends.
Qed.

(** X11: after the error nothing is read: lines that follow the line that
    raised change neither the output nor the error. *)
Theorem error_ends_the_run (pre post : list string) (e : ProcessingError) :
  ended (processFile pre) = inl e ->
  processFile (pre ++ post) = processFile pre.
Proof.
  intros H. unfold processFile in *. now rewrite processLines_app, H.
Qed.

Lemma error_ends_the_run_witness :
  processFile ([ln ";; $@CONFIG"; ln ";; $@DEBUG FALSE"; ln ";; $@END";
                ln ";; $@DEBUG"; ln ";; $@CONFIG"] ++ [ln ";; $@END"; ln "x"])
  = processFile [ln ";; $@CONFIG"; ln ";; $@DEBUG FALSE"; ln ";; $@END";
                 ln ";; $@DEBUG"; ln ";; $@CONFIG"].
Proof.
  apply (error_ends_the_run _ _ unexpectedTag). reflexivity.
Defined.

Lemma processLines_error (st : state) (config : gmap string value)
    (output lines : list string) (e : ProcessingError) :
  ended (processLines st config output lines) = inl e ->
  exists pre line post st' config',
    lines = pre ++ line :: post
    /\ processLines st config output pre
       = mkRun (written (processLines st config output lines))
           (inr (st', config'))
    /\ processLine st' config' line = inl e.
Proof.
  revert st config output; induction lines as [|line lines IH];
    intros st config output H; [discriminate|].
  simpl in H. simpl written.
  destruct (processLine st config line) as [e'|[[st1 config1] lineOut]] eqn:Hl.
  - exists [], line, lines, st, config. simpl in *. split; [reflexivity|].
    split; congruence.
  - destruct (IH _ _ _ H) as (pre & l & post & st' & config' & -> & Hpre & Herr).
    exists (line :: pre), l, post, st', config'. simpl. rewrite Hl. auto.
Qed.

(** X12: every error has one cause and one place: the run raised at a
    directive other than [END] that was read in the COMMENT or UNCOMMENT
    state, and the output holds one line for each line before that
    directive, the lines a run over those alone would write. *)
Theorem error_is_a_tag_inside_a_block (lines : list string) (e : ProcessingError) :
  ended (processFile lines) = inl e ->
  exists pre line post st config,
    lines = pre ++ line :: post
    /\ processFile pre = mkRun (written (processFile lines)) (inr (st, config))
    /\ length (written (processFile lines)) = length pre
    /\ (st = STATE_COMMENT \/ st = STATE_UNCOMMENT)
    /\ hasDelim line = true /\ getDelimName line <> "END"
    /\ endOfCode line = false
    /\ e = mkProcessingError "***Unexpected preprocessor tag found".
Proof.
  intros H. unfold processFile in *.
  destruct (processLines_error _ _ _ _ _ H)
    as (pre & line & post & st & config & Hlines & Hpre & Herr).
  exists pre, line, post, st, config.
  apply processLine_raises in Herr as (Hst & He & Hd & Hn & ->).
  repeat split; try assumption.
  assert (Hend : ended (processLines STATE_NORMAL ∅ [] pre) = inr (st, config))
    by now rewrite Hpre.
  destruct (processLines_written _ _ _ _ _ Hend) as (outs & Hw & Hf).
  rewrite Hpre in Hw. simpl in Hw. rewrite Hw. simpl.
  symmetry. eapply Forall2_length, Hf.
Qed.

Lemma error_is_a_tag_inside_a_block_witness :
  exists pre line post st config,
    [ln ";; $@CONFIG"; ln ";; $@A TRUE"; ln ";; $@END"; ln ";; $@A";
     ln "; x"; ln ";; $@B"; ln "y"] = pre ++ line :: post
    /\ processFile pre
       = mkRun (written (processFile
           [ln ";; $@CONFIG"; ln ";; $@A TRUE"; ln ";; $@END"; ln ";; $@A";
            ln "; x"; ln ";; $@B"; ln "y"])) (inr (st, config))
    /\ length (written (processFile
           [ln ";; $@CONFIG"; ln ";; $@A TRUE"; ln ";; $@END"; ln ";; $@A";
            ln "; x"; ln ";; $@B"; ln "y"])) = length pre
    /\ (st = STATE_COMMENT \/ st = STATE_UNCOMMENT)
    /\ hasDelim line = true /\ getDelimName line <> "END"
    /\ endOfCode line = false
    /\ unexpectedTag = mkProcessingError "***Unexpected preprocessor tag found".
Proof.
  apply (error_is_a_tag_inside_a_block
           [ln ";; $@CONFIG"; ln ";; $@A TRUE"; ln ";; $@END"; ln ";; $@A";
            ln "; x"; ln ";; $@B"; ln "y"] unexpectedTag).
  reflexivity.
Defined.

(** ** Sentinel, directives and white space *)

Lemma app_assoc_string (s t u : string) : (s +:+ t) +:+ u = s +:+ (t +:+ u).
Proof.
  induction s as [|c s IH]; [reflexivity|]. rewrite !app_cons. now rewrite IH.
Qed.

Lemma blank_app (s t : string) :
  blank s = true -> blank t = true -> blank (s +:+ t) = true.
Proof.
  intros Hs Ht. induction s as [|c s IH]; [assumption|].
  rewrite app_cons. simpl in *. apply andb_true_iff in Hs as [-> Hs]. auto.
Qed.

Lemma lstrip_app_blank (ws s : string) :
  blank ws = true -> Py.lstrip (ws +:+ s) = Py.lstrip s.
Proof.
  intros H. induction ws as [|c ws IH]; [reflexivity|].
  rewrite app_cons. simpl in *. apply andb_true_iff in H as [-> H]. auto.
Qed.

(** White space around a line does not change its stripped form. *)
Lemma strip_padded (ws1 ws2 line : string) :
  blank ws1 = true -> blank ws2 = true ->
  Py.strip (ws1 +:+ line +:+ ws2) = Py.strip line.
Proof.
  intros H1 H2. unfold Py.strip. rewrite lstrip_app_blank by assumption.
  destruct (lstrip_cases line) as [[Hb Hl]|(ws & c & r & -> & Hb & Hc & Hl)].
  - rewrite Hl. rewrite (rstrip_blank (Py.lstrip _)); [reflexivity|].
    pose proof (blank_app _ _ Hb H2) as Hall.
    destruct (lstrip_cases (line +:+ ws2))
      as [[_ ->]|(ws' & c & r & Heq & Hw & Hc & _)]; [reflexivity|].
    exfalso. rewrite Heq in Hall. clear - Hall Hw Hc.
    induction ws' as [|a ws' IH]; simpl in *.
    + rewrite Hc in Hall. discriminate.
    + apply andb_true_iff in Hall as [_ Hall].
      apply andb_true_iff in Hw as [_ Hw]. auto.
  - rewrite Hl, app_assoc_string, app_cons.
    rewrite lstrip_app_blank by assumption. simpl Py.lstrip. rewrite Hc.
    change (String c (r +:+ ws2)) with (String c r +:+ ws2).
    now rewrite rstrip_app_blank.
Qed.

Lemma space_is_not_at (c : ascii) :
  Py.isspace c = true -> Ascii.eqb "@" c = false.
Proof. intros H. destruct (Ascii.eqb_spec "@" c) as [<-|]; [discriminate|reflexivity]. Qed.

(** X13: directives are recognised whatever white space stands before and
    after them on the line (indentation, trailing blanks, the line
    terminator): [hasDelim], [getDelimName], [getConfigTuple] and the [END]
    test give the same for the padded line.  The sentinel is not: a line
    that starts with white space is never the sentinel. *)
Theorem directives_ignore_surrounding_space (ws1 ws2 line : string) :
  blank ws1 = true -> blank ws2 = true ->
  hasDelim (ws1 +:+ line +:+ ws2) = hasDelim line
  /\ getDelimName (ws1 +:+ line +:+ ws2) = getDelimName line
  /\ getConfigTuple (ws1 +:+ line +:+ ws2) = getConfigTuple line
  /\ isEnd (ws1 +:+ line +:+ ws2) = isEnd line
  /\ (ws1 <> "" -> endOfCode (ws1 +:+ line +:+ ws2) = false).
Proof.
  intros H1 H2. pose proof (strip_padded ws1 ws2 line H1 H2) as Hs.
  unfold isEnd, hasDelim, getDelimName, getConfigTuple. rewrite Hs.
  repeat split. intros Hne. destruct ws1 as [|c ws1]; [contradiction|].
  simpl in H1. apply andb_true_iff in H1 as [Hc _].
  unfold endOfCode. rewrite app_cons. cbn [Py.startswith].
  now rewrite (space_is_not_at c Hc).
Qed.

Lemma directives_ignore_surrounding_space_witness :
  isEnd ("   " +:+ ";; $@END" +:+ ln "  ") = isEnd ";; $@END"
  /\ endOfCode ("   " +:+ "@#$#@#$#@" +:+ ln "") = false.
Proof.
  destruct (directives_ignore_surrounding_space "   " (ln "  ") ";; $@END"
              eq_refl eq_refl) as (_ & _ & _ & Hend & _).
  destruct (directives_ignore_surrounding_space "   " (ln "") "@#$#@#$#@"
              eq_refl eq_refl) as (_ & _ & _ & _ & Hsentinel).
  split; [exact Hend|]. apply Hsentinel. discriminate.
Defined.

Lemma sentinel_strip (line : string) :
  endOfCode line = true -> exists r, Py.strip line = String "@" r.
Proof.
  unfold endOfCode. intros H. apply startswith_inv in H. rewrite H.
  unfold Py.strip.
  change (Py.lstrip ("@#$#@#$#@" +:+ ?r)) with ("@#$#@#$#@" +:+ r).
  set (rest := Py.drop _ _).
  change ("@#$#@#$#@" +:+ rest) with (String "@" ("#$#@#$#@" +:+ rest)).
  rewrite rstrip_cons by reflexivity. eauto.
Qed.

(** X14: the sentinel is no directive, so the two first tests of the loop
    never compete; and in every state, a block included, the sentinel
    raises nothing, is written unchanged, leaves the dictionary alone and
    sets the state to ENDOFCODE. *)
Theorem sentinel_is_no_directive (st : state) (config : gmap string value)
    (line : string) :
  endOfCode line = true ->
  hasDelim line = false
  /\ isEnd line = false
  /\ processLine st config line = inr (STATE_ENDOFCODE, config, line).
Proof.
  intros H. assert (Hd : hasDelim line = false).
  { destruct (sentinel_strip line H) as [r Hs]. unfold hasDelim. now rewrite Hs. }
  split; [assumption|]. split; [now apply isEnd_hasDelim|].
  unfold processLine. now rewrite H.
Qed.

Lemma sentinel_is_no_directive_witness :
  processLine STATE_COMMENT (<["FOO" := VBool false]> ∅) (ln "@#$#@#$#@ ;; $@FOO")
  = inr (STATE_ENDOFCODE, <["FOO" := VBool false]> ∅, ln "@#$#@#$#@ ;; $@FOO").
Proof.
  apply (sentinel_is_no_directive STATE_COMMENT _ (ln "@#$#@#$#@ ;; $@FOO")).
  reflexivity.
Defined.

(** ** The dictionary *)

Lemma partition_head (s : string) (sep : ascii) :
  occurs sep (Py.partition s sep).1.1 = false.
Proof.
  induction s as [|a s IH]; [reflexivity|]. simpl.
  destruct (Ascii.eqb a sep) eqn:Ha; [reflexivity|].
  destruct (Py.partition s sep) as [[h m] t]. simpl in *. now rewrite Ha.
Qed.

Lemma getConfigTuple_ok (line : string) :
  occurs " " (getConfigTuple line).1 = false
  /\ match (getConfigTuple line).2 with
     | VBool _ => (getConfigTuple line).1 <> "VERSION"
     | VStr _ => (getConfigTuple line).1 = "VERSION"
     end.
Proof.
  unfold getConfigTuple.
  pose proof (partition_head (Py.slice_from (Py.strip line) 5) " ") as Hp.
  destruct (Py.partition _ _) as [[name space] raw]. simpl in Hp.
  destruct (String.eqb_spec name "VERSION") as [->|Hn]; simpl; auto.
Qed.

Lemma processLine_config_cases (st st' : state) (config config' : gmap string value)
    (line lineOut : string) :
  processLine st config line = inr (st', config', lineOut) ->
  config' = config
  \/ config' = <[(getConfigTuple line).1 := (getConfigTuple line).2]> config.
Proof.
  unfold processLine.
  destruct (endOfCode line); [intros [= _ <- _]; auto|].
  destruct (isEnd line); [intros [= _ <- _]; auto|].
  destruct st; simpl.
  - destruct (hasDelim line); [|intros [= _ <- _]; auto].
    destruct (String.eqb _ _); [intros [= _ <- _]; auto|].
    destruct (config !! _) as [v|]; [destruct (truthy v)|];
      intros [= _ <- _]; auto.
  - destruct (getConfigTuple line). intros [= _ <- _]; auto.
  - destruct (hasDelim line); [discriminate|]. intros [= _ <- _]; auto.
  - destruct (hasDelim line); [discriminate|]. intros [= _ <- _]; auto.
  - intros [= _ <- _]; auto.
Qed.

Lemma processLines_configOK (st st' : state) (config config' : gmap string value)
    (output lines : list string) :
  configOK config ->
  ended (processLines st config output lines) = inr (st', config') ->
  configOK config'.
Proof.
  revert st config output; induction lines as [|line lines IH];
    intros st config output Hok H.
  - simpl in H. now injection H as <- <-.
  - simpl in H.
    destruct (processLine st config line) as [e|[[st1 config1] lineOut]] eqn:Hl;
      [discriminate|].
    apply (IH _ _ _) in H; [assumption|].
    destruct (processLine_config_cases _ _ _ _ _ _ Hl) as [->| ->];
      [assumption|].
    intros name v. destruct (decide ((getConfigTuple line).1 = name)) as [<-|Hne].
    + rewrite lookup_insert_eq. intros [= <-]. apply getConfigTuple_ok.
    + rewrite lookup_insert_ne by assumption. apply Hok.
Qed.

(** X15: whatever the file holds, the dictionary a run ends with binds only
    names without a space, [VERSION] to a string and every other name to a
    boolean. *)
Theorem final_config_is_well_formed (lines : list string) (st : state)
    (config : gmap string value) :
  ended (processFile lines) = inr (st, config) ->
  configOK config.
Proof.
  apply processLines_configOK. intros name v. now rewrite lookup_empty.
Qed.

Lemma final_config_is_well_formed_witness :
  configOK (<["VERSION" := VStr "1.2"]> (<["FOO" := VBool true]> ∅)).
Proof.
  apply (final_config_is_well_formed
           [ln ";; $@CONFIG"; ln ";; $@FOO TRUE"; ln ";; $@VERSION 1.2";
            ln ";; $@END"] STATE_NORMAL).
  vm_compute. reflexivity.
Defined.

Lemma processLines_keeps_names (st st' : state) (config config' : gmap string value)
    (output lines : list string) (name : string) :
  ended (processLines st config output lines) = inr (st', config') ->
  is_Some (config !! name) -> is_Some (config' !! name).
Proof.
  revert st config output; induction lines as [|line lines IH];
    intros st config output H Hin.
  - simpl in H. now injection H as <- <-.
  - simpl in H.
    destruct (processLine st config line) as [e|[[st1 config1] lineOut]] eqn:Hl;
      [discriminate|].
    apply (IH _ _ _ H).
    destruct (processLine_config_cases _ _ _ _ _ _ Hl) as [->| ->];
      [assumption|].
    rewrite lookup_insert_is_Some. destruct (decide ((getConfigTuple line).1 = name)); auto.
Qed.

(** X16: the dictionary is never cleared: a name bound after the first
    lines of a file is still bound after any further lines (its value may
    have been set again). *)
Theorem declared_flags_stay_declared (pre post : list string) (st st' : state)
    (config config' : gmap string value) (name : string) :
  ended (processFile pre) = inr (st, config) ->
  ended (processFile (pre ++ post)) = inr (st', config') ->
  is_Some (config !! name) -> is_Some (config' !! name).
Proof.
  unfold processFile. intros Hpre Hall. rewrite processLines_app, Hpre in Hall.
  eapply processLines_keeps_names, Hall.
Qed.

Lemma declared_flags_stay_declared_witness :
  is_Some ((<["BAR" := VBool true]> (<["FOO" := VBool false]> ∅ : gmap string value))
             !! "FOO").
Proof.
  apply (declared_flags_stay_declared
           [ln ";; $@CONFIG"; ln ";; $@FOO FALSE"; ln ";; $@END"]
           [ln ";; $@CONFIG"; ln ";; $@BAR TRUE"; ln ";; $@END"]
           STATE_NORMAL STATE_NORMAL (<["FOO" := VBool false]> ∅)).
  - vm_compute. reflexivity.
  - vm_compute. reflexivity.
  - rewrite lookup_insert_eq. eauto.
Defined.

(** ** More on the two rewritings *)

Lemma commentCode_plain (line : string) :
  String.get 0 (Py.strip line) <> Some ";"%char ->
  commentCode line = "; " +:+ line.
Proof.
  intros H. unfold commentCode. destruct (_ && _) eqn:Ht; [|reflexivity].
  apply single_semicolon_test in Ht as [Ht _]. contradiction.
Qed.

(** X17: whatever the line, what [commentCode] returns is a single-semicolon
    comment: its stripped form starts with [;] and does not go on with a
    second [;]. *)
Theorem commentCode_returns_a_comment (line : string) :
  alreadyCommented (commentCode line).
Proof.
  unfold commentCode. destruct (_ && _) eqn:Ht.
  - now apply single_semicolon_test.
  - unfold alreadyCommented.
    destruct (strip_prefixed line) as [->|[r ->]]; simpl; split;
      (reflexivity || discriminate).
Qed.

(** X18: for a line whose first character after the leading white space is
    not [;], [commentCode] followed by [uncommentCode] gives a line with the
    same stripped form: the round trip changes the indentation only. *)
Theorem round_trip_keeps_stripped_form (line : string) :
  String.get 0 (Py.strip line) <> Some ";"%char ->
  Py.strip (uncommentCode (commentCode line)) = Py.strip line
  /\ Py.lstrip (uncommentCode (commentCode line)) = Py.lstrip line.
Proof.
  intros H. rewrite (commentCode_plain _ H), uncommentCode_prefixed.
  split; reflexivity.
Qed.

Lemma round_trip_keeps_stripped_form_witness :
  Py.strip (uncommentCode (commentCode (ln "  x = 1"))) = "x = 1".
Proof.
  destruct (round_trip_keeps_stripped_form (ln "  x = 1")) as [Hs _].
  - vm_compute. discriminate.
  - rewrite Hs. reflexivity.
Defined.

(** ** Blocks *)

Lemma processLines_inside (st : state) (config : gmap string value)
    (output body : list string) :
  st = STATE_COMMENT \/ st = STATE_UNCOMMENT ->
  Forall (fun line => hasDelim line = false /\ endOfCode line = false) body ->
  processLines st config output body
  = mkRun (output ++ map (if bool_decide (st = STATE_UNCOMMENT)
                          then uncommentCode else commentCode) body)
      (inr (st, config)).
Proof.
  intros Hst Hall. revert output.
  induction Hall as [|line body [Hd He] _ IH]; intros output.
  - simpl. now rewrite app_nil_r.
  - destruct Hst as [-> | ->].
    + rewrite (processLines_cons _ _ _ _ _ _ _ _
                 (processLine_comment config line He Hd)).
      rewrite IH. simpl. now rewrite <- app_assoc.
    + rewrite (processLines_cons _ _ _ _ _ _ _ _
                 (processLine_uncomment config line He Hd)).
      rewrite IH. simpl. now rewrite <- app_assoc.
Qed.

Lemma processLine_flag (config : gmap string value) (line : string) (v : value) :
  config !! getDelimName line = Some v ->
  hasDelim line = true -> endOfCode line = false ->
  getDelimName line <> "END" -> getDelimName line <> "CONFIG" ->
  processLine STATE_NORMAL config line
  = inr (if truthy v then STATE_UNCOMMENT else STATE_COMMENT, config, line).
Proof.
  intros Hv Hd He Hend Hcfg. unfold processLine.
  rewrite He, (isEnd_name _ Hend), Hd. simpl.
  apply String.eqb_neq in Hcfg. rewrite Hcfg, Hv. now destruct (truthy v).
Qed.

Lemma processLine_END (st : state) (config : gmap string value) (line : string) :
  isEnd line = true -> endOfCode line = false ->
  processLine st config line = inr (STATE_NORMAL, config, line).
Proof. intros Hend He. unfold processLine. now rewrite He, Hend. Qed.

(** X19: a block does what the tool is for.  From the NORMAL state, a
    reference to a declared flag, then lines that are neither directives
    nor the sentinel, then an [END] directive: the two directives are
    written unchanged, every line between them is written through
    [uncommentCode] when the value of the flag is true and through
    [commentCode] when it is false, and the state is NORMAL again with the
    dictionary as it was. *)
Theorem block_rewrites_its_lines (config : gmap string value) (v : value)
    (opening closing : string) (body output : list string) :
  config !! getDelimName opening = Some v ->
  hasDelim opening = true -> endOfCode opening = false ->
  getDelimName opening <> "END" -> getDelimName opening <> "CONFIG" ->
  Forall (fun line => hasDelim line = false /\ endOfCode line = false) body ->
  isEnd closing = true -> endOfCode closing = false ->
  processLines STATE_NORMAL config output (opening :: body ++ [closing])
  = mkRun (output ++ opening
             :: map (if truthy v then uncommentCode else commentCode) body
             ++ [closing])
      (inr (STATE_NORMAL, config)).
Proof.
  intros Hv Hd He Hend Hcfg Hbody Hclose Hce.
  rewrite (processLines_cons _ _ _ _ _ _ _ _
             (processLine_flag config opening v Hv Hd He Hend Hcfg)).
  rewrite processLines_app.
  rewrite processLines_inside by (assumption || destruct (truthy v); auto).
  cbn [ended written].
  rewrite (processLines_cons _ _ _ _ _ _ _ _
             (processLine_END _ config closing Hclose Hce)).
  simpl. replace (bool_decide _) with (truthy v) by now destruct (truthy v).
  f_equal. rewrite <- !app_assoc. reflexivity.
Qed.

Lemma block_rewrites_its_lines_witness :
  processLines STATE_NORMAL (<["FOO" := VBool false]> ∅) []
    (ln ";; $@FOO" :: [ln "x = 1"; ln "  ; y"; ln ""] ++ [ln ";; $@END"])
  = mkRun ([] ++ ln ";; $@FOO"
             :: map commentCode [ln "x = 1"; ln "  ; y"; ln ""]
             ++ [ln ";; $@END"])
      (inr (STATE_NORMAL, <["FOO" := VBool false]> ∅)).
Proof.
  apply (block_rewrites_its_lines (<["FOO" := VBool false]> ∅) (VBool false)
           (ln ";; $@FOO") (ln ";; $@END")
           [ln "x = 1"; ln "  ; y"; ln ""] []).
  - reflexivity.
  - reflexivity.
  - reflexivity.
  - vm_compute. discriminate.
  - vm_compute. discriminate.
  - repeat constructor.
  - reflexivity.
  - reflexivity.
Defined.

Lemma sentinel_strip_length (line : string) :
  endOfCode line = true -> (9 <= String.length (Py.strip line))%nat.
Proof.
  unfold endOfCode. intros H. apply startswith_inv in H. rewrite H.
  unfold Py.strip. set (rest := Py.drop _ _).
  change ("@#$#@#$#@" +:+ rest)
    with (String "@" (String "#" (String "$" (String "#" (String "@"
           (String "#" (String "$" (String "#" (String "@" rest))))))))).
  cbn [Py.lstrip Py.isspace Ascii.is_space].
  repeat rewrite rstrip_cons by reflexivity. simpl. lia.
Qed.

(** X20: in the CONFIG state a line whose stripped form has at most five
    characters (an empty line, a short word, the bare marker) is taken as
    an entry with the empty name: the dictionary binds the empty string to
    false after it, the line is written unchanged and the state stays
    CONFIG. *)
Theorem short_line_in_config_binds_empty_name (config : gmap string value)
    (line : string) :
  (String.length (Py.strip line) <= 5)%nat ->
  processLine STATE_CONFIG config line
  = inr (STATE_CONFIG, <["" := VBool false]> config, line).
Proof.
  intros Hlen.
  assert (Hbody : Py.drop 5 (Py.strip line) = "") by now apply drop_all.
  assert (He : endOfCode line = false).
  { destruct (endOfCode line) eqn:He; [|reflexivity].
    apply sentinel_strip_length in He. lia. }
  assert (Hend : isEnd line = false).
  { apply isEnd_name. rewrite getDelimName_drop, Hbody. discriminate. }
  rewrite processLine_config by assumption.
  rewrite getConfigTuple_no_space by now rewrite Hbody.
  now rewrite Hbody.
Qed.

Lemma short_line_in_config_binds_empty_name_witness :
  processLine STATE_CONFIG ∅ (ln "")
  = inr (STATE_CONFIG, <["" := VBool false]> ∅, ln "")
  /\ processLine STATE_CONFIG ∅ (ln ";; $@")
     = inr (STATE_CONFIG, <["" := VBool false]> ∅, ln ";; $@").
Proof.
  split.
  - apply (short_line_in_config_binds_empty_name ∅ (ln "")). vm_compute. lia.
  - apply (short_line_in_config_binds_empty_name ∅ (ln ";; $@")). vm_compute. lia.
Defined.
